(** * n8n-agent: the Hono backend and the TanStack Query demo route

    A shallow embedding of the two runnable pieces of the repository:

    - [Be]: [packages/be/src/index.ts], a Hono application with two GET
      routes over a module-level [todos] array, exported with a port;
    - [Fe]: the [/demo/tanstack-query] route, i.e. the async function
      [fetchTodos] and the component [TanStackQueryDemo].

    JavaScript values that cross the wire are modelled by [JSON]; strings
    are byte strings. *)

From Stdlib Require Import ZArith String Ascii List Bool Lia DecimalString FinFun.
Import ListNotations.
Local Open Scope string_scope.
Local Open Scope Z_scope.

(** ** JSON values and [JSON.stringify] *)

(** A JavaScript value that survives [JSON.stringify]/[JSON.parse].  Numbers
    are restricted to the integers (the only numbers the service holds are
    the ids 1, 2, 3).  An object is its list of own properties in insertion
    order, which is the order [JSON.stringify] emits them in. *)
#[warnings="-register-all"]
Inductive JSON : Type :=
| JNull
| JBool (b : bool)
| JNum (n : Z)
| JStr (s : string)
| JArr (items : list JSON)
| JObj (props : list (string * JSON)).

Module Json.

Definition dquote : string := String (ascii_of_nat 34) EmptyString.
Definition backslash : string := String (ascii_of_nat 92) EmptyString.

Definition hex_digit (n : nat) : string :=
  String.substring n 1 "0123456789abcdef".

(** One code unit of a string inside the quotes of [JSON.stringify]. *)
Definition escape_char (c : ascii) : string :=
  let n := nat_of_ascii c in
  if (n =? 34)%nat then backslash ++ dquote
  else if (n =? 92)%nat then backslash ++ backslash
  else if (n =? 8)%nat then backslash ++ "b"
  else if (n =? 9)%nat then backslash ++ "t"
  else if (n =? 10)%nat then backslash ++ "n"
  else if (n =? 12)%nat then backslash ++ "f"
  else if (n =? 13)%nat then backslash ++ "r"
  else if (n <? 32)%nat then
    backslash ++ "u00" ++ hex_digit (n / 16) ++ hex_digit (n mod 16)
  else String c EmptyString.

Fixpoint escape (s : string) : string :=
  match s with
  | EmptyString => EmptyString
  | String c rest => escape_char c ++ escape rest
  end.

Definition quote (s : string) : string := dquote ++ escape s ++ dquote.

Definition number (n : Z) : string := NilZero.string_of_int (Z.to_int n).

(** [JSON.stringify(v)] with no replacer and no indentation. *)
Fixpoint stringify (v : JSON) : string :=
  match v with
  | JNull => "null"
  | JBool true => "true"
  | JBool false => "false"
  | JNum n => number n
  | JStr s => quote s
  | JArr items => "[" ++ String.concat "," (map stringify items) ++ "]"
  | JObj props =>
      "{" ++ String.concat ","
               (map (fun kv => quote (fst kv) ++ ":" ++ stringify (snd kv)) props)
          ++ "}"
  end.

End Json.

(** ** The backend: [packages/be/src/index.ts] *)

Module Be.

(** *** The part of Hono the service uses *)

(** An incoming request: the HTTP method and the path component of
    [request.url], percent escapes as the client sent them; headers and
    payload are carried along and never read by the service. *)
Record Request : Type := mkRequest {
  method : string;
  path : string;
  headers : list (string * string);
  payload : string
}.

Inductive MediaType : Type := TextPlain | ApplicationJson.

(** A [Response]: the status, the media type of its [Content-Type] header
    and its body ([None] is a null body). *)
Record Response : Type := mkResponse {
  status : Z;
  contentType : option MediaType;
  body : option string
}.

(** The context [c] handed to a handler. *)
Record Context : Type := mkContext { req : Request }.

(** [c.text(s)]: status 200, [text/plain]. *)
Definition text (c : Context) (s : string) : Response :=
  {| status := 200; contentType := Some TextPlain; body := Some s |}.

(** [c.json(v)]: status 200, [application/json], body [JSON.stringify(v)]. *)
Definition json (c : Context) (v : JSON) : Response :=
  {| status := 200; contentType := Some ApplicationJson;
     body := Some (Json.stringify v) |}.

(** Hono's default not-found handler: [c.text("404 Not Found", 404)]. *)
Definition notFoundHandler (c : Context) : Response :=
  {| status := 404; contentType := Some TextPlain;
     body := Some "404 Not Found" |}.

(** *** The module's data *)

Record Todo : Type := mkTodo { id : Z; name : string }.

(** The module-level bindings a handler can reach.  [todos] is a [const]
    binding of a mutable array, so a handler is a state transformer. *)
Record Store : Type := mkStore { todos : list Todo }.

Definition Handler : Type := Context -> Store -> Response * Store.

Record Route : Type := mkRoute {
  route_method : string;
  route_path : string;
  route_handler : Handler
}.

(** [new Hono()] and [app.get(path, handler)]. *)
Record Hono : Type := mkHono { routes : list Route }.

Definition new_Hono : Hono := {| routes := [] |}.

Definition get (p : string) (h : Handler) (app : Hono) : Hono :=
  {| routes := routes app ++ [mkRoute "GET" p h] |}.

(** The router: the handlers registered for this method and this exact
    path (the service registers static paths only), in registration
    order. *)
Definition router_match (app : Hono) (m p : string) : list Handler :=
  map route_handler
      (filter (fun r => String.eqb (route_method r) m && String.eqb (route_path r) p)
              (routes app)).

Fixpoint has_percent (s : string) : bool :=
  match s with
  | EmptyString => false
  | String c rest => Ascii.eqb c "%" || has_percent rest
  end.

Section Routing.

(** Hono's percent-decoding of a request path ([tryDecodeURI] of its
    [utils/url], applied by [getPath]); the framework is not among the
    sources, so the decoder is a parameter of the model. *)
Variable decode : string -> string.

(** Hono's [getPath]: a path without [%] is the path itself, any other is
    decoded before it reaches the router. *)
Definition getPath (r : Request) : string :=
  if has_percent (path r) then decode (path r) else path r.

Definition dispatch (app : Hono) (m : string) (r : Request) (st : Store)
  : Response * Store :=
  match router_match app m (getPath r) with
  | h :: _ => h (mkContext r) st
  | [] => (notFoundHandler (mkContext r), st)
  end.

(** [app.fetch].  Hono has no [head] registration method: its dispatcher
    (hono-base, [#dispatch]) answers a request whose method is HEAD with
    [new Response(null, await this.#dispatch(request, executionCtx, env, "GET"))],
    the GET response with a null body. *)
Definition Hono_fetch (app : Hono) (r : Request) (st : Store)
  : Response * Store :=
  if String.eqb (method r) "HEAD" then
    let '(res, st') := dispatch app "GET" r st in
    ({| status := status res; contentType := contentType res; body := None |}, st')
  else dispatch app (method r) r st.

End Routing.

(** *** index.ts *)

Definition toJSON (t : Todo) : JSON :=
  JObj [("id", JNum (id t)); ("name", JStr (name t))].

(** [const todos = [...]] *)
Definition initial_store : Store :=
  {| todos := [mkTodo 1 "Alice"; mkTodo 2 "Bob"; mkTodo 3 "Hehe"] |}.

(** [app.get("/", c => c.text("Hello Hono!"))] and
    [app.get("/api/todos", c => c.json(todos))]. *)
Definition app : Hono :=
  get "/api/todos" (fun c st => (json c (JArr (map toJSON (todos st))), st))
    (get "/" (fun c st => (text c "Hello Hono!", st))
       new_Hono).

(** The environment the module is evaluated in ([process.env]). *)
Definition Environment : Type := list (string * string).

Record Export : Type := mkExport {
  fetch : Request -> Store -> Response * Store;
  port : Z
}.

(** [export default { fetch: app.fetch, port: 3333 }], with the
    framework's path decoder [decode]. *)
Definition default_export (decode : string -> string) (env : Environment) : Export :=
  {| fetch := Hono_fetch decode app; port := 3333 |}.

(** The running process: requests are served one after the other against
    the store left by the previous one. *)
Fixpoint serve (decode : string -> string) (env : Environment) (st : Store)
    (rs : list Request) : list Response * Store :=
  match rs with
  | [] => ([], st)
  | r :: rest =>
      let '(res, st1) := fetch (default_export decode env) r st in
      let '(out, st2) := serve decode env st1 rest in
      (res :: out, st2)
  end.

(** A decoder for paths that hold no percent escape, where [getPath] does
    not call it. *)
Definition no_escapes : string -> string := fun p => p.

(** The sample set of [index.ts] written out as a JSON value. *)
Definition sample : JSON :=
  JArr [JObj [("id", JNum 1); ("name", JStr "Alice")];
        JObj [("id", JNum 2); ("name", JStr "Bob")];
        JObj [("id", JNum 3); ("name", JStr "Hehe")]].

(** A GET request to the path [p]. *)
Definition is_get (p : string) (r : Request) : Prop :=
  method r = "GET" /\ path r = p.

End Be.

(** ** The frontend: the [/demo/tanstack-query] route *)

Module Fe.

(** *** Promises over the browser's effects *)

(** A JavaScript [Error] object: its [name] and its [message]. *)
Record Error : Type := mkError { error_name : string; message : string }.

(** [new Error(msg)] *)
Definition new_Error (msg : string) : Error :=
  {| error_name := "Error"; message := msg |}.

(** How a promise settles. *)
Inductive Settled (A : Type) : Type :=
| Fulfilled (a : A)
| Rejected (e : Error).
Arguments Fulfilled {A} a.
Arguments Rejected {A} e.

(** The [Response] that [fetch] resolves to, as far as [fetchTodos] looks
    at it: the status, from which the Fetch standard derives [ok]
    (200..299), and what [response.json()] settles to. *)
Record Response : Type := mkResponse {
  status : Z;
  json_result : Settled JSON
}.

Definition ok (r : Response) : bool :=
  (200 <=? status r) && (status r <=? 299).

(** What the function did to the outside, stamped with the clock (ms). *)
Inductive Event : Type :=
| Fetched (url : string)
| Slept (ms : Z)
| BodyRead.

(** The outside of the function: the clock, what the network answers for
    a URL and after how long, how late timers fire, and the events so
    far. *)
Record World : Type := mkWorld {
  now : Z;
  network : string -> Settled Response;
  latency : N;
  timer_lag : N;
  log : list (Z * Event)
}.

Definition tick (t : Z) (ev : Event) (w : World) : World :=
  {| now := t; network := network w; latency := latency w;
     timer_lag := timer_lag w; log := log w ++ [(t, ev)] |}.

(** A promise-returning computation: it settles and leaves a world. *)
Definition Promise (A : Type) : Type := World -> Settled A * World.

(** [throw e] inside an async function rejects its promise. *)
Definition throw {A} (e : Error) : Promise A := fun w => (Rejected e, w).

(** [await p], then the rest of the async function; a rejection of [p]
    is rethrown and skips the rest. *)
Definition await {A B} (p : Promise A) (k : A -> Promise B) : Promise B :=
  fun w =>
    match p w with
    | (Fulfilled a, w') => k a w'
    | (Rejected e, w') => (Rejected e, w')
    end.

Notation "'let*' x ':=' 'await' p 'in' k" := (await p (fun x => k))
  (at level 10, x name, p at level 200, k at level 200).

(** The browser's [fetch(url)]. *)
Definition fetch (url : string) : Promise Response :=
  fun w => (network w url, tick (now w + Z.of_N (latency w)) (Fetched url) w).

(** [response.json()] *)
Definition Response_json (r : Response) : Promise JSON :=
  fun w => (json_result r, tick (now w) BodyRead w).

(** Modelled from the spec: [sleep] of [@/lib/utils], which is not among
    the sources; the spec calls it an artificial delay injected after the
    response is received.  It resolves once at least [ms] milliseconds
    have passed. *)
Definition sleep (ms : Z) : Promise unit :=
  fun w => (Fulfilled tt,
            tick (now w + Z.max 0 ms + Z.of_N (timer_lag w)) (Slept ms) w).

(** *** fetchTodos *)

Definition fetchTodos : Promise JSON :=
  let* response := await fetch "/api/todos" in
  if negb (ok response) then
    throw (new_Error "Network response was not ok")
  else
    let* _ := await sleep 1000 in
    Response_json response.

(** The declared element type [{ id: number; name: string }], read
    structurally (an object with a number [id] and a string [name]), and
    the declared result type [Array<{ id: number; name: string }>]. *)
Fixpoint property (k : string) (props : list (string * JSON)) : option JSON :=
  match props with
  | [] => None
  | (k', v) :: rest => if String.eqb k' k then Some v else property k rest
  end.

Definition is_record (v : JSON) : bool :=
  match v with
  | JObj props =>
      match property "id" props, property "name" props with
      | Some (JNum _), Some (JStr _) => true
      | _, _ => false
      end
  | _ => false
  end.

Definition is_record_array (v : JSON) : bool :=
  match v with
  | JArr items => forallb is_record items
  | _ => false
  end.

(** *** TanStackQueryDemo *)

(** What a JavaScript variable holds here: [undefined] ([None]) or a JSON
    value. *)
Definition JSValue : Type := option JSON.

(** What the component destructures from [useQuery].  [data] is what the
    query function fulfilled with, or [undefined]; its declared type is
    erased at run time, so it is any value [fetchTodos] can return. *)
Record QueryResult : Type := mkQueryResult {
  data : JSValue;
  isLoading : bool;
  error : option Error
}.

(** How evaluating an expression ends: with a value, or with a
    [TypeError] thrown. *)
Inductive Outcome (A : Type) : Type :=
| Returns (a : A)
| ThrowsTypeError.
Arguments Returns {A} a.
Arguments ThrowsTypeError {A}.

(** A React element as the JSX builds it: a tag, its attributes with the
    values given to them, and its children.  A child is an element, a
    string ([Text], written out in the JSX or the value of an expression),
    or the value of an expression that is not a string ([Embedded]). *)
#[warnings="-register-all"]
Inductive Node : Type :=
| Element (tag : string) (props : list (string * JSValue)) (children : list Node)
| Text (s : string)
| Embedded (v : JSValue).

(** [{e}] as a child. *)
Definition child (v : JSValue) : Node :=
  match v with
  | Some (JStr s) => Text s
  | _ => Embedded v
  end.

(** [todo.id] and [todo.name]: reading from [null] throws; an object gives
    its own property or [undefined]; a boolean, a number, a string or an
    array has neither property. *)
Definition member (v : JSON) (k : string) : Outcome JSValue :=
  match v with
  | JNull => ThrowsTypeError
  | JObj props => Returns (property k props)
  | _ => Returns None
  end.

(** The callback of [data?.map]:
    [<li key={todo.id} className=...><span className=...>{todo.name}</span></li>] *)
Definition item (todo : JSON) : Outcome Node :=
  match member todo "id", member todo "name" with
  | Returns key, Returns name =>
      Returns
        (Element "li"
           [("key", key);
            ("className",
             Some (JStr "bg-white/10 border border-white/20 rounded-lg p-3 backdrop-blur-sm shadow-md"))]
           [Element "span" [("className", Some (JStr "text-lg text-white"))]
              [child name]])
  | _, _ => ThrowsTypeError
  end.

(** [Array.prototype.map] with that callback: element by element, and a
    throw ends it. *)
Fixpoint map_item (items : list JSON) : Outcome (list Node) :=
  match items with
  | [] => Returns []
  | todo :: rest =>
      match item todo with
      | Returns li =>
          match map_item rest with
          | Returns lis => Returns (li :: lis)
          | ThrowsTypeError => ThrowsTypeError
          end
      | ThrowsTypeError => ThrowsTypeError
      end
  end.

(** [data?.map(...)]: on [undefined] and [null] the optional chain gives
    [undefined], which renders nothing; on an array it maps; any other
    value has no function [map], and calling it throws. *)
Definition optional_map (d : JSValue) : Outcome (list Node) :=
  match d with
  | None => Returns []
  | Some JNull => Returns []
  | Some (JArr items) => map_item items
  | Some _ => ThrowsTypeError
  end.

Definition TanStackQueryDemo (q : QueryResult) : Outcome Node :=
  if isLoading q then
    Returns
      (Element "div"
         [("className",
           Some (JStr "flex items-center justify-center min-h-screen bg-linear-to-br from-purple-100 to-blue-100 p-4 text-white"));
          ("style",
           Some (JObj [("backgroundImage",
                        JStr "radial-gradient(50% 50% at 95% 5%, #f4a460 0%, #8b4513 70%, #1a0f0a 100%)")]))]
         [Element "div"
            [("className",
              Some (JStr "w-full max-w-2xl p-8 rounded-xl backdrop-blur-md bg-black/50 shadow-xl border-8 border-black/10"))]
            [Element "h1" [("className", Some (JStr "text-2xl mb-4"))]
               [Text "Loading..."]]])
  else
    match error q with
    | Some e =>
        Returns
          (Element "div"
             [("className",
               Some (JStr "flex items-center justify-center min-h-screen bg-linear-to-br from-purple-100 to-blue-100 p-4 text-white"));
              ("style",
               Some (JObj [("backgroundImage",
                            JStr "radial-gradient(50% 50% at 95% 5%, #f4a460 0%, #8b4513 70%, #1a0f0a 100%)")]))]
             [Element "div"
                [("className",
                  Some (JStr "w-full max-w-2xl p-8 rounded-xl backdrop-blur-md bg-black/50 shadow-xl border-8 border-black/10"))]
                [Element "h1" [("className", Some (JStr "text-2xl mb-4"))]
                   [Text "Error: "; Text (message e)]]])
    | None =>
        match optional_map (data q) with
        | Returns lis =>
            Returns
              (Element "div"
                 [("className",
                   Some (JStr "flex items-center justify-center min-h-screen bg-linear-to-br from-purple-100 to-blue-100 p-4 text-white"));
                  ("style",
                   Some (JObj [("backgroundImage",
                                JStr "radial-gradient(50% 50% at 95% 5%, #f4a460 0%, #8b4513 70%, #1a0f0a 100%)")]))]
                 [Element "div"
                    [("className",
                      Some (JStr "w-full max-w-2xl p-8 rounded-xl backdrop-blur-md bg-black/50 shadow-xl border-8 border-black/10"))]
                    [Element "h1" [("className", Some (JStr "text-2xl mb-4"))]
                       [Text "TanStack Query - Fetch from Backend"];
                     Element "ul" [("className", Some (JStr "mb-4 space-y-2"))] lis]])
        | ThrowsTypeError => ThrowsTypeError
        end
    end.

(** *** The three presentations *)

(** The two wrapping [div]s, which the three [return]s of the component
    spell out identically. *)
Definition panel (content : list Node) : Node :=
  Element "div"
    [("className",
      Some (JStr "flex items-center justify-center min-h-screen bg-linear-to-br from-purple-100 to-blue-100 p-4 text-white"));
     ("style",
      Some (JObj [("backgroundImage",
                   JStr "radial-gradient(50% 50% at 95% 5%, #f4a460 0%, #8b4513 70%, #1a0f0a 100%)")]))]
    [Element "div"
       [("className",
         Some (JStr "w-full max-w-2xl p-8 rounded-xl backdrop-blur-md bg-black/50 shadow-xl border-8 border-black/10"))]
       content].

Definition heading (content : list Node) : Node :=
  Element "h1" [("className", Some (JStr "text-2xl mb-4"))] content.

(** The loading panel. *)
Definition loading_panel : Node :=
  panel [heading [Text "Loading..."]].

(** The error panel with a message. *)
Definition error_panel (msg : string) : Node :=
  panel [heading [Text "Error: "; Text msg]].

(** The list view with its items. *)
Definition list_view (lis : list Node) : Node :=
  panel [heading [Text "TanStack Query - Fetch from Backend"];
         Element "ul" [("className", Some (JStr "mb-4 space-y-2"))] lis].

(** *** The declared type of [data] *)

(** A record [{ id: number; name: string }]. *)
Record Todo : Type := mkTodo { id : Z; name : string }.

(** The record a value of the declared element type stands for. *)
Definition as_record (v : JSON) : option Todo :=
  match v with
  | JObj props =>
      match property "id" props, property "name" props with
      | Some (JNum n), Some (JStr s) => Some (mkTodo n s)
      | _, _ => None
      end
  | _ => None
  end.

Fixpoint as_records (items : list JSON) : option (list Todo) :=
  match items with
  | [] => Some []
  | v :: rest =>
      match as_record v, as_records rest with
      | Some t, Some ts => Some (t :: ts)
      | _, _ => None
      end
  end.

(** [data] read at its declared type
    [Array<{ id: number; name: string }> | undefined]: the records it
    holds, none while it is undefined; [None] when the value is not of
    that type. *)
Definition declared (d : JSValue) : option (list Todo) :=
  match d with
  | None => Some []
  | Some (JArr items) => as_records items
  | Some _ => None
  end.

(** *** Observing a rendered tree and a run *)

(** The strings of a tree in document order. *)
Fixpoint texts (n : Node) : list string :=
  match n with
  | Text s => [s]
  | Embedded _ => []
  | Element _ _ children => flat_map texts children
  end.

Fixpoint prop_value (k : string) (props : list (string * JSValue)) : JSValue :=
  match props with
  | [] => None
  | (k', v) :: rest => if String.eqb k' k then v else prop_value k rest
  end.

(** The values given as [key], in document order. *)
Fixpoint keys (n : Node) : list JSON :=
  match n with
  | Text _ => []
  | Embedded _ => []
  | Element _ props children =>
      (match prop_value "key" props with
       | Some k => [k]
       | None => []
       end ++ flat_map keys children)%list
  end.

(** The URLs requested in a log, oldest first. *)
Definition requests (l : list (Z * Event)) : list string :=
  flat_map (fun te => match snd te with
                      | Fetched url => [url]
                      | _ => []
                      end) l.

(** *** A mocked network *)

Definition not_ok_message : string := "Network response was not ok".

(** A world whose network answers every URL with a response of status
    [s] whose body parses to [v], as a test of the route would mock
    [fetch]. *)
Definition mock_world (s : Z) (v : JSON) : World :=
  {| now := 5; network := fun _ => Fulfilled (mkResponse s (Fulfilled v));
     latency := 20%N; timer_lag := 3%N; log := [] |}.

End Fe.

(** ** Properties of the backend *)

Module BeFacts.
Import Be.

Lemma registered_routes :
  map (fun r => (route_method r, route_path r)) (routes app)
  = [("GET", "/"); ("GET", "/api/todos")].
Proof. reflexivity. Qed.

(** What the router finds depends on two string tests only. *)
Lemma router_match_app m p :
  router_match app m p =
  ((if String.eqb "GET" m && String.eqb "/" p
    then [fun c st => (text c "Hello Hono!", st)] else [])
   ++ (if String.eqb "GET" m && String.eqb "/api/todos" p
       then [fun c st => (json c (JArr (map toJSON (todos st))), st)] else []))%list.
Proof.
  unfold router_match, app, get, new_Hono.
  cbn [routes Datatypes.app filter route_method route_path].
  destruct (String.eqb "GET" m && String.eqb "/" p);
    destruct (String.eqb "GET" m && String.eqb "/api/todos" p); reflexivity.
Qed.

(** A path without a percent escape reaches the router as it is. *)
Lemma getPath_plain decode r :
  has_percent (path r) = false -> getPath decode r = path r.
Proof. intros H. unfold getPath. rewrite H. reflexivity. Qed.

(** [has_percent] finds a [%] wherever it stands. *)
Lemma has_percent_spec (s : string) :
  has_percent s = true <-> exists a b, s = a ++ String "%" b.
Proof.
  induction s as [|c rest IH]; cbn [has_percent].
  - split; [discriminate|]. intros (a & b & H). destruct a; discriminate H.
  - rewrite orb_true_iff, IH. split.
    + intros [H | (a & b & ->)].
      * apply Ascii.eqb_eq in H. subst c. exists "", rest. reflexivity.
      * exists (String c a), b. reflexivity.
    + intros (a & b & H). destruct a as [|c' a]; cbn [String.append] in H.
      * injection H as -> _. left. apply Ascii.eqb_refl.
      * injection H as _ ->. right. exists a, b. reflexivity.
Qed.

(** What [getPath] hands to the router: the path itself when it holds no
    [%], the decoded path when it holds one. *)
Lemma getPath_cases decode r :
  ((forall a b, path r <> a ++ String "%" b) -> getPath decode r = path r)
  /\ ((exists a b, path r = a ++ String "%" b) ->
      getPath decode r = decode (path r)).
Proof.
  unfold getPath. split.
  - intros H. destruct (has_percent (path r)) eqn:E; [|reflexivity].
    apply has_percent_spec in E. destruct E as (a & b & E).
    exfalso. exact (H a b E).
  - intros H. apply has_percent_spec in H. rewrite H. reflexivity.
Qed.

Lemma getPath_is_get decode p r :
  is_get p r -> has_percent p = false -> getPath decode r = p.
Proof. intros [_ Hp] H. rewrite getPath_plain; rewrite Hp; [reflexivity | exact H]. Qed.

Lemma dispatch_store decode m r st : snd (dispatch decode app m r st) = st.
Proof.
  unfold dispatch. rewrite router_match_app.
  destruct (String.eqb "GET" m && String.eqb "/" (getPath decode r));
    destruct (String.eqb "GET" m && String.eqb "/api/todos" (getPath decode r));
    reflexivity.
Qed.

(** No handler, and not the framework either, writes the store. *)
Lemma fetch_store decode env r st : snd (fetch (default_export decode env) r st) = st.
Proof.
  simpl. unfold Hono_fetch.
  destruct (String.eqb (method r) "HEAD").
  - pose proof (dispatch_store decode "GET" r st) as H.
    destruct (dispatch decode app "GET" r st) as [res st']. exact H.
  - apply dispatch_store.
Qed.

Lemma serve_store decode env rs : forall st, snd (serve decode env st rs) = st.
Proof.
  induction rs as [|r rest IH]; intros st; [reflexivity|].
  cbn [serve].
  pose proof (fetch_store decode env r st) as Hr.
  destruct (fetch (default_export decode env) r st) as [res st1]. simpl in Hr. subst st1.
  specialize (IH st).
  destruct (serve decode env st rest) as [out st2]. exact IH.
Qed.

(** The [i]-th response of a run is the answer to the [i]-th request
    against the store the run started with. *)
Lemma serve_nth decode env rs : forall st i,
  nth_error (fst (serve decode env st rs)) i
  = option_map (fun r => fst (fetch (default_export decode env) r st)) (nth_error rs i).
Proof.
  induction rs as [|r rest IH]; intros st i.
  - destruct i; reflexivity.
  - cbn [serve].
    pose proof (fetch_store decode env r st) as Hr.
    destruct (fetch (default_export decode env) r st) as [res st1] eqn:E.
    simpl in Hr. subst st1.
    specialize (IH st).
    destruct (serve decode env st rest) as [out st2].
    destruct i as [|i]; cbn [nth_error fst option_map].
    + rewrite E. reflexivity.
    + apply (IH i).
Qed.

Lemma fetch_get_todos decode env r st :
  is_get "/api/todos" r ->
  fst (fetch (default_export decode env) r st)
  = json (mkContext r) (JArr (map toJSON (todos st))).
Proof.
  intros G. pose proof G as [Hm _]. simpl. unfold Hono_fetch, dispatch.
  rewrite router_match_app, Hm, (getPath_is_get decode _ r G eq_refl). reflexivity.
Qed.

Lemma fetch_get_root decode env r st :
  is_get "/" r ->
  fst (fetch (default_export decode env) r st) = text (mkContext r) "Hello Hono!".
Proof.
  intros G. pose proof G as [Hm _]. simpl. unfold Hono_fetch, dispatch.
  rewrite router_match_app, Hm, (getPath_is_get decode _ r G eq_refl). reflexivity.
Qed.

(** The bytes of the sample set. *)
Lemma sample_text :
  let q := Json.dquote in
  Json.stringify sample
  = "[{" ++ q ++ "id" ++ q ++ ":1," ++ q ++ "name" ++ q ++ ":" ++ q ++ "Alice" ++ q ++ "},"
    ++ "{" ++ q ++ "id" ++ q ++ ":2," ++ q ++ "name" ++ q ++ ":" ++ q ++ "Bob" ++ q ++ "},"
    ++ "{" ++ q ++ "id" ++ q ++ ":3," ++ q ++ "name" ++ q ++ ":" ++ q ++ "Hehe" ++ q ++ "}]".
Proof. reflexivity. Qed.

(** C1. Whatever requests the process has served before, a GET request to
    [/api/todos] is answered with status 200 and a JSON body that is the
    serialisation of the array
    [[{id:1,name:"Alice"},{id:2,name:"Bob"},{id:3,name:"Hehe"}]], in that
    order. *)
Theorem get_todos_returns_sample decode env (history : list Request) (r : Request) :
  method r = "GET" ->
  path r = "/api/todos" ->
  let st := snd (serve decode env initial_store history) in
  let res := fst (fetch (default_export decode env) r st) in
  status res = 200
  /\ contentType res = Some ApplicationJson
  /\ body res = Some (Json.stringify sample).
Proof.
  intros Hm Hp st res. subst st res.
  rewrite serve_store, fetch_get_todos by (split; assumption).
  repeat split.
Qed.

Lemma get_todos_returns_sample_witness :
  let r := mkRequest "GET" "/api/todos" [("accept", "*/*")] "" in
  let res := fst (fetch (default_export no_escapes []) r
                    (snd (serve no_escapes [] initial_store [mkRequest "GET" "/" [] ""]))) in
  status res = 200
  /\ contentType res = Some ApplicationJson
  /\ body res = Some (Json.stringify sample).
Proof.
  exact (get_todos_returns_sample no_escapes [] [mkRequest "GET" "/" [] ""]
           (mkRequest "GET" "/api/todos" [("accept", "*/*")] "")
           eq_refl eq_refl).
Defined.

(** C4. A GET request to [/] is answered with status 200 and the
    plain-text body [Hello Hono!], whatever the process served before. *)
Theorem get_root_returns_greeting decode env (history : list Request) (r : Request) :
  method r = "GET" ->
  path r = "/" ->
  fst (fetch (default_export decode env) r (snd (serve decode env initial_store history)))
  = {| status := 200; contentType := Some TextPlain; body := Some "Hello Hono!" |}.
Proof.
  intros Hm Hp. rewrite fetch_get_root by (split; assumption). reflexivity.
Qed.

Lemma get_root_returns_greeting_witness :
  fst (fetch (default_export no_escapes []) (mkRequest "GET" "/" [] "")
         (snd (serve no_escapes [] initial_store [mkRequest "POST" "/api/todos" [] "{}"])))
  = {| status := 200; contentType := Some TextPlain; body := Some "Hello Hono!" |}.
Proof.
  exact (get_root_returns_greeting no_escapes [] [mkRequest "POST" "/api/todos" [] "{}"]
           (mkRequest "GET" "/" [] "") eq_refl eq_refl).
Defined.

(** C5. In one run of the process, the responses to any two GET requests
    to [/api/todos] are equal, wherever the two requests stand in the
    sequence of requests served, and the store the run ends with is the
    one it started with: serving a request never changes [todos]. *)
Theorem todos_responses_identical decode env (rs : list Request) (i j : nat)
    (ri rj : Request) :
  nth_error rs i = Some ri ->
  nth_error rs j = Some rj ->
  is_get "/api/todos" ri ->
  is_get "/api/todos" rj ->
  let run := serve decode env initial_store rs in
  nth_error (fst run) i = nth_error (fst run) j
  /\ (exists res, nth_error (fst run) i = Some res
                  /\ body res = Some (Json.stringify sample))
  /\ snd run = initial_store
  /\ (forall r st, snd (fetch (default_export decode env) r st) = st).
Proof.
  intros Hi Hj Gi Gj run. subst run.
  rewrite !serve_nth, Hi, Hj. cbn [option_map].
  rewrite !fetch_get_todos by assumption.
  repeat split.
  - eexists. split; reflexivity.
  - apply serve_store.
  - intros r st. apply fetch_store.
Qed.

Lemma todos_responses_identical_witness :
  let rs := [mkRequest "GET" "/api/todos" [] "";
             mkRequest "DELETE" "/api/todos" [] "";
             mkRequest "GET" "/api/todos" [("x-n", "2")] "ignored"] in
  let run := serve no_escapes [] initial_store rs in
  nth_error (fst run) 0 = nth_error (fst run) 2
  /\ (exists res, nth_error (fst run) 0 = Some res
                  /\ body res = Some (Json.stringify sample))
  /\ snd run = initial_store
  /\ (forall r st, snd (fetch (default_export no_escapes []) r st) = st).
Proof.
  exact (todos_responses_identical no_escapes []
           [mkRequest "GET" "/api/todos" [] "";
            mkRequest "DELETE" "/api/todos" [] "";
            mkRequest "GET" "/api/todos" [("x-n", "2")] "ignored"]
           0 2 _ _ eq_refl eq_refl (conj eq_refl eq_refl) (conj eq_refl eq_refl)).
Defined.

(** C7. The exported configuration has port 3333 in every environment the
    module is evaluated in: the export does not depend on the
    environment at all.  (The framework's decoder plays no part in it.) *)
Theorem port_is_3333 decode (env : Environment) :
  port (default_export decode env) = 3333
  /\ forall env', default_export decode env' = default_export decode env.
Proof. split; [reflexivity | intros env'; reflexivity]. Qed.

Lemma dispatch_not_found decode m r st :
  m <> "GET" \/ (getPath decode r <> "/" /\ getPath decode r <> "/api/todos") ->
  dispatch decode app m r st = (notFoundHandler (mkContext r), st).
Proof.
  intros H. unfold dispatch. rewrite router_match_app.
  destruct H as [Hm | [H1 H2]].
  - assert (E : String.eqb "GET" m = false)
      by (apply String.eqb_neq; congruence).
    rewrite E. reflexivity.
  - assert (E1 : String.eqb "/" (getPath decode r) = false)
      by (apply String.eqb_neq; congruence).
    assert (E2 : String.eqb "/api/todos" (getPath decode r) = false)
      by (apply String.eqb_neq; congruence).
    rewrite E1, E2, !andb_false_r. reflexivity.
Qed.

Lemma dispatch_get decode m r st :
  m = "GET" -> getPath decode r = "/" \/ getPath decode r = "/api/todos" ->
  status (fst (dispatch decode app m r st)) = 200.
Proof.
  intros -> H. unfold dispatch. rewrite router_match_app.
  destruct H as [-> | ->]; reflexivity.
Qed.

(** C10, as the code has it. Exactly two routes are registered, GET [/] and
    GET [/api/todos]. The router sees the path as the framework's
    [getPath] returns it: percent-decoded, and left as it is when it holds
    no [%]. A request whose method is neither GET nor HEAD, or whose path
    so decoded is neither [/] nor [/api/todos], gets status 404, and
    unless it is a HEAD request the response is the framework's default
    one, the text [404 Not Found]. A HEAD request whose decoded path is
    one of the two is dispatched as GET and answered with status 200 and
    no body. *)
Theorem unmatched_request_not_found decode env (r : Request) (st : Store) :
  (method r <> "GET" /\ method r <> "HEAD")
  \/ (getPath decode r <> "/" /\ getPath decode r <> "/api/todos") ->
  map (fun rt => (route_method rt, route_path rt)) (routes app)
    = [("GET", "/"); ("GET", "/api/todos")]
  /\ ((forall a b, path r <> a ++ String "%" b) -> getPath decode r = path r)
  /\ ((exists a b, path r = a ++ String "%" b) ->
      getPath decode r = decode (path r))
  /\ status (fst (fetch (default_export decode env) r st)) = 404
  /\ (method r <> "HEAD" ->
      fst (fetch (default_export decode env) r st)
      = {| status := 404; contentType := Some TextPlain;
           body := Some "404 Not Found" |})
  /\ (forall r' : Request,
        method r' = "HEAD" ->
        getPath decode r' = "/" \/ getPath decode r' = "/api/todos" ->
        status (fst (fetch (default_export decode env) r' st)) = 200
        /\ body (fst (fetch (default_export decode env) r' st)) = None).
Proof.
  intros H. split; [exact registered_routes|].
  split; [apply getPath_cases|]. split; [apply getPath_cases|].
  cbn [fetch default_export]. unfold Hono_fetch.
  split; [|split].
  - destruct (String.eqb (method r) "HEAD") eqn:E.
    + apply String.eqb_eq in E.
      destruct H as [[_ Hh] | Hp]; [congruence|].
      rewrite dispatch_not_found by (right; exact Hp). reflexivity.
    + apply String.eqb_neq in E.
      rewrite dispatch_not_found; [reflexivity|].
      destruct H as [[Hg _] | Hp]; [left; exact Hg | right; exact Hp].
  - intros Hh. apply String.eqb_neq in Hh. rewrite Hh.
    rewrite dispatch_not_found; [reflexivity|].
    destruct H as [[Hg _] | Hp]; [left; exact Hg | right; exact Hp].
  - intros r' Hh Hp. rewrite Hh. cbn [String.eqb Ascii.eqb Bool.eqb].
    pose proof (dispatch_get decode "GET" r' st eq_refl Hp) as H200.
    destruct (dispatch decode app "GET" r' st) as [res st']. split; [exact H200 | reflexivity].
Qed.

Lemma unmatched_request_not_found_witness :
  let r := mkRequest "POST" "/api/todos" [] "{}" in
  map (fun rt => (route_method rt, route_path rt)) (routes app)
    = [("GET", "/"); ("GET", "/api/todos")]
  /\ ((forall a b, path r <> a ++ String "%" b) -> getPath no_escapes r = path r)
  /\ ((exists a b, path r = a ++ String "%" b) ->
      getPath no_escapes r = no_escapes (path r))
  /\ status (fst (fetch (default_export no_escapes []) r initial_store)) = 404
  /\ (method r <> "HEAD" ->
      fst (fetch (default_export no_escapes []) r initial_store)
      = {| status := 404; contentType := Some TextPlain;
           body := Some "404 Not Found" |})
  /\ (forall r' : Request,
        method r' = "HEAD" ->
        getPath no_escapes r' = "/" \/ getPath no_escapes r' = "/api/todos" ->
        status (fst (fetch (default_export no_escapes []) r' initial_store)) = 200
        /\ body (fst (fetch (default_export no_escapes []) r' initial_store)) = None).
Proof.
  apply (unmatched_request_not_found no_escapes [] (mkRequest "POST" "/api/todos" [] "{}")
           initial_store).
  left. split; discriminate.
Defined.

(** C10 as stated fails, whatever the framework's decoder does: a HEAD
    request to [/] matches neither GET route by method and path, and it is
    answered with status 200. *)
Lemma head_root_is_not_404 :
  ~ (exists decode, forall env (r : Request) (st : Store),
       ~ is_get "/" r -> ~ is_get "/api/todos" r ->
       status (fst (fetch (default_export decode env) r st)) = 404).
Proof.
  intros [decode H].
  specialize (H [] (mkRequest "HEAD" "/" [] "") initial_store).
  assert (N1 : ~ is_get "/" (mkRequest "HEAD" "/" [] ""))
    by (intros [Hm _]; discriminate Hm).
  assert (N2 : ~ is_get "/api/todos" (mkRequest "HEAD" "/" [] ""))
    by (intros [Hm _]; discriminate Hm).
  specialize (H N1 N2). cbn in H. discriminate H.
Qed.

End BeFacts.

(** ** Properties of the frontend *)

Module FeFacts.
Import Fe.

(** Every status from 400 up is a non-success status. *)
Lemma status_ge_400_not_ok (r : Response) : 400 <= status r -> ok r = false.
Proof.
  intros H. unfold ok.
  assert (E : (status r <=? 299) = false) by (apply Z.leb_gt; lia).
  rewrite E. apply andb_false_r.
Qed.

(** The two paths through [fetchTodos] once the request has resolved. *)
Lemma fetchTodos_unfold w r :
  network w "/api/todos" = Fulfilled r ->
  fetchTodos w =
  let w1 := tick (now w + Z.of_N (latency w)) (Fetched "/api/todos") w in
  if ok r then
    Response_json r (tick (now w1 + Z.max 0 1000 + Z.of_N (timer_lag w1)) (Slept 1000) w1)
  else (Rejected (new_Error not_ok_message), w1).
Proof.
  intros H. unfold fetchTodos, await, fetch. rewrite H.
  destruct (ok r); reflexivity.
Qed.

(** C2. When the request resolves to a response whose status is not a
    success status ([ok] is false, as it is for every status from 400
    up), [fetchTodos] rejects with an [Error] whose message is exactly
    [Network response was not ok], and it fulfils with no value. *)
Theorem fetchTodos_rejects_when_not_ok (w : World) (r : Response) :
  network w "/api/todos" = Fulfilled r ->
  ok r = false ->
  fst (fetchTodos w) = Rejected (new_Error not_ok_message)
  /\ (exists e, fst (fetchTodos w) = Rejected e
                /\ message e = "Network response was not ok")
  /\ (forall v, fst (fetchTodos w) <> Fulfilled v).
Proof.
  intros Hnet Hok. rewrite (fetchTodos_unfold w r Hnet), Hok. cbn [fst].
  split; [reflexivity|]. split.
  - eexists. split; reflexivity.
  - intros v. discriminate.
Qed.

Lemma fetchTodos_rejects_when_not_ok_witness :
  let w := mock_world 500 JNull in
  fst (fetchTodos w) = Rejected (new_Error not_ok_message)
  /\ (exists e, fst (fetchTodos w) = Rejected e
                /\ message e = "Network response was not ok")
  /\ (forall v, fst (fetchTodos w) <> Fulfilled v).
Proof.
  apply (fetchTodos_rejects_when_not_ok (mock_world 500 JNull)
           (mkResponse 500 (Fulfilled JNull)) eq_refl).
  apply status_ge_400_not_ok. simpl. lia.
Defined.

(** C3. When the request resolves to a response with a success status
    whose body parses to [b], [fetchTodos] fulfils with [b] itself, so an
    array comes back with the same elements in the same order; and it
    does so only after the delay: the function sleeps 1000 ms between
    receiving the response and reading the body, and settles no earlier
    than 1000 ms after the response arrived. *)
Theorem fetchTodos_returns_body_after_delay (w : World) (r : Response) (b : JSON) :
  network w "/api/todos" = Fulfilled r ->
  ok r = true ->
  json_result r = Fulfilled b ->
  let arrived := now w + Z.of_N (latency w) in
  let '(result, w') := fetchTodos w in
  result = Fulfilled b
  /\ (forall items, b = JArr items ->
        exists items', result = Fulfilled (JArr items')
                       /\ forall i, nth_error items' i = nth_error items i)
  /\ arrived + 1000 <= now w'
  /\ log w' = (log w ++ [(arrived, Fetched "/api/todos")]
                     ++ [(now w', Slept 1000)]
                     ++ [(now w', BodyRead)])%list.
Proof.
  intros Hnet Hok Hb arrived.
  rewrite (fetchTodos_unfold w r Hnet), Hok.
  unfold Response_json. rewrite Hb. cbn [tick now log timer_lag].
  split; [reflexivity|]. split; [|split].
  - intros items ->. exists items. split; reflexivity.
  - subst arrived. lia.
  - rewrite <- !app_assoc. reflexivity.
Qed.

Lemma fetchTodos_returns_body_after_delay_witness :
  let b := JArr [JObj [("id", JNum 2); ("name", JStr "Bob")];
                 JObj [("id", JNum 1); ("name", JStr "Alice")]] in
  let w := mock_world 200 b in
  let arrived := now w + Z.of_N (latency w) in
  let '(result, w') := fetchTodos w in
  result = Fulfilled b
  /\ (forall items, b = JArr items ->
        exists items', result = Fulfilled (JArr items')
                       /\ forall i, nth_error items' i = nth_error items i)
  /\ arrived + 1000 <= now w'
  /\ log w' = (log w ++ [(arrived, Fetched "/api/todos")]
                     ++ [(now w', Slept 1000)]
                     ++ [(now w', BodyRead)])%list.
Proof.
  exact (fetchTodos_returns_body_after_delay
           (mock_world 200 (JArr [JObj [("id", JNum 2); ("name", JStr "Bob")];
                                  JObj [("id", JNum 1); ("name", JStr "Alice")]]))
           (mkResponse 200 _) _ eq_refl eq_refl eq_refl).
Defined.

(** C8. The delay is on the success path only: when the response has a
    non-success status, [fetchTodos] rejects at the very instant the
    response arrived, and the only thing it did was the request; it did
    not sleep. *)
Theorem fetchTodos_fails_without_delay (w : World) (r : Response) :
  network w "/api/todos" = Fulfilled r ->
  ok r = false ->
  let '(result, w') := fetchTodos w in
  result = Rejected (new_Error not_ok_message)
  /\ now w' = now w + Z.of_N (latency w)
  /\ log w' = (log w ++ [(now w', Fetched "/api/todos")])%list
  /\ (forall t ms, In (t, Slept ms) (log w') -> In (t, Slept ms) (log w)).
Proof.
  intros Hnet Hok. rewrite (fetchTodos_unfold w r Hnet), Hok.
  cbn [tick now log]. repeat split.
  intros t ms Hin. apply in_app_or in Hin.
  destruct Hin as [Hin | [Hin | []]]; [exact Hin | discriminate Hin].
Qed.

Lemma fetchTodos_fails_without_delay_witness :
  let w := mock_world 404 (JStr "no") in
  let '(result, w') := fetchTodos w in
  result = Rejected (new_Error not_ok_message)
  /\ now w' = now w + Z.of_N (latency w)
  /\ log w' = (log w ++ [(now w', Fetched "/api/todos")])%list
  /\ (forall t ms, In (t, Slept ms) (log w') -> In (t, Slept ms) (log w)).
Proof.
  exact (fetchTodos_fails_without_delay (mock_world 404 (JStr "no"))
           (mkResponse 404 _) eq_refl eq_refl).
Defined.

(** C9. [fetchTodos] does not validate the body: when the response has a
    success status and its body parses to a JSON value [v], the function
    fulfils with [v] unchanged, whether or not [v] is an array of
    [{id, name}] records. *)
Theorem fetchTodos_does_not_validate (w : World) (r : Response) (v : JSON)
    (conforms : bool) :
  network w "/api/todos" = Fulfilled r ->
  ok r = true ->
  json_result r = Fulfilled v ->
  is_record_array v = conforms ->
  fst (fetchTodos w) = Fulfilled v.
Proof.
  intros Hnet Hok Hv _. rewrite (fetchTodos_unfold w r Hnet), Hok.
  unfold Response_json. rewrite Hv. reflexivity.
Qed.

Lemma fetchTodos_does_not_validate_witness :
  let v := JObj [("error", JStr "not a list"); ("code", JNum 7)] in
  is_record_array v = false
  /\ fst (fetchTodos (mock_world 200 v)) = Fulfilled v.
Proof.
  split; [reflexivity|].
  exact (fetchTodos_does_not_validate
           (mock_world 200 (JObj [("error", JStr "not a list"); ("code", JNum 7)]))
           (mkResponse 200 _) _ false eq_refl eq_refl eq_refl eq_refl).
Defined.

(** The three presentations are different trees. *)
Lemma loading_not_error msg : loading_panel <> error_panel msg.
Proof. unfold loading_panel, error_panel, panel, heading. intros H. inversion H. Qed.

Lemma loading_not_list lis : loading_panel <> list_view lis.
Proof. unfold loading_panel, list_view, panel, heading. intros H. inversion H. Qed.

Lemma error_not_list msg lis : error_panel msg <> list_view lis.
Proof. unfold error_panel, list_view, panel, heading. intros H. inversion H. Qed.

(** A value of the declared element type becomes one item that shows the
    record's name and is keyed by the record's id. *)
Lemma item_record (v : JSON) (t : Todo) :
  as_record v = Some t ->
  exists li, item v = Returns li
             /\ texts li = [name t] /\ keys li = [JNum (id t)].
Proof.
  destruct v as [| | | |items|props]; try discriminate.
  unfold as_record, item, member.
  destruct (property "id" props) as [[| |n| | |]|]; try discriminate.
  destruct (property "name" props) as [[| | |s| |]|]; try discriminate.
  intros H. injection H as <-. eexists. split; [reflexivity|].
  split; reflexivity.
Qed.

(** An array of the declared type maps to one item per record, in the
    order of the array. *)
Lemma map_item_records (items : list JSON) : forall l,
  as_records items = Some l ->
  exists lis, map_item items = Returns lis
              /\ length lis = length l
              /\ flat_map texts lis = map name l
              /\ flat_map keys lis = map (fun t => JNum (id t)) l.
Proof.
  induction items as [|v rest IH]; intros l H.
  - injection H as <-. exists []. repeat split.
  - cbn [as_records] in H.
    destruct (as_record v) as [t|] eqn:Ev; [|discriminate].
    destruct (as_records rest) as [ts|] eqn:Er; [|discriminate].
    injection H as <-.
    destruct (item_record v t Ev) as (li & Hli & Ht & Hk).
    destruct (IH ts eq_refl) as (lis & Hlis & Hlen & Hts & Hks).
    exists (li :: lis). cbn [map_item]. rewrite Hli, Hlis.
    split; [reflexivity|]. cbn [length flat_map map].
    rewrite Hlen, Ht, Hk, Hts, Hks. repeat split.
Qed.

(** Data of the declared type, or none yet, gives the list items. *)
Lemma optional_map_declared (d : JSValue) (l : list Todo) :
  declared d = Some l ->
  exists lis, optional_map d = Returns lis
              /\ length lis = length l
              /\ flat_map texts lis = map name l
              /\ flat_map keys lis = map (fun t => JNum (id t)) l.
Proof.
  destruct d as [[| | | |items|]|]; try discriminate.
  - apply map_item_records.
  - intros H. injection H as <-. exists []. repeat split.
Qed.

(** The list view, once the component got that far. *)
Lemma list_view_rendered (q : QueryResult) (l : list Todo) :
  isLoading q = false -> error q = None -> declared (data q) = Some l ->
  exists lis, TanStackQueryDemo q = Returns (list_view lis)
              /\ length lis = length l
              /\ flat_map texts lis = map name l
              /\ flat_map keys lis = map (fun t => JNum (id t)) l.
Proof.
  intros Hl He Hd.
  destruct (optional_map_declared _ _ Hd) as (lis & Hm & Hrest).
  exists lis. split; [|exact Hrest].
  unfold TanStackQueryDemo. rewrite Hl, He, Hm. reflexivity.
Qed.

(** C6, as the code has it. Take any combination of [isLoading], [error]
    and [data] in which [data], when the component gets to it (not
    loading, no error), is undefined or an array of [{id, name}] records.
    The component renders exactly one of the three presentations: the
    loading panel ([Loading...]) when [isLoading] is set; otherwise the
    error panel with [Error: ] and the error's message when there is an
    error; otherwise the list view, the heading and one item per record.
    The three are different trees, so the rendered tree is never two of
    them at once, and never anything else. *)
Theorem renders_exactly_one_panel (q : QueryResult) (l : list Todo) :
  (isLoading q = false -> error q = None -> declared (data q) = Some l) ->
  exists v, TanStackQueryDemo q = Returns v
    /\ (isLoading q = true -> v = loading_panel /\ texts v = ["Loading..."])
    /\ (forall e, isLoading q = false -> error q = Some e ->
                  v = error_panel (message e)
                  /\ texts v = ["Error: "; message e])
    /\ (isLoading q = false -> error q = None ->
        exists lis, v = list_view lis
                    /\ length lis = length l
                    /\ texts v = "TanStack Query - Fetch from Backend" :: map name l)
    /\ ((v = loading_panel
         /\ (forall m, v <> error_panel m) /\ (forall lis, v <> list_view lis))
        \/ ((exists m, v = error_panel m)
            /\ v <> loading_panel /\ (forall lis, v <> list_view lis))
        \/ ((exists lis, v = list_view lis)
            /\ v <> loading_panel /\ (forall m, v <> error_panel m))).
Proof.
  intros Hd.
  destruct (isLoading q) eqn:Hl; [|destruct (error q) as [e|] eqn:He].
  - exists loading_panel. split; [unfold TanStackQueryDemo; rewrite Hl; reflexivity|].
    repeat split; try discriminate.
    left. repeat split.
    + intros m. apply loading_not_error.
    + intros lis. apply loading_not_list.
  - exists (error_panel (message e)).
    split; [unfold TanStackQueryDemo; rewrite Hl, He; reflexivity|].
    repeat split; try discriminate.
    + injection H0 as <-. reflexivity.
    + injection H0 as <-. reflexivity.
    + right. left. repeat split.
      * eexists. reflexivity.
      * intros H. symmetry in H. exact (loading_not_error _ H).
      * intros lis. apply error_not_list.
  - destruct (list_view_rendered q l Hl He (Hd eq_refl eq_refl))
      as (lis & Hv & Hlen & Hts & _).
    exists (list_view lis). split; [exact Hv|].
    repeat split; try discriminate.
    + intros _ _. exists lis. repeat split; [exact Hlen|].
      unfold list_view, panel, heading. cbn [texts flat_map Datatypes.app].
      rewrite Hts, !app_nil_r. reflexivity.
    + right. right. repeat split.
      * eexists. reflexivity.
      * intros H. symmetry in H. exact (loading_not_list _ H).
      * intros m H. symmetry in H. exact (error_not_list _ _ H).
Qed.

Lemma renders_exactly_one_panel_witness :
  let q := mkQueryResult
             (Some (JArr [JObj [("id", JNum 1); ("name", JStr "Alice")];
                          JObj [("name", JStr "Bob"); ("id", JNum 2)]]))
             false None in
  let l := [mkTodo 1 "Alice"; mkTodo 2 "Bob"] in
  exists v, TanStackQueryDemo q = Returns v
    /\ (isLoading q = true -> v = loading_panel /\ texts v = ["Loading..."])
    /\ (forall e, isLoading q = false -> error q = Some e ->
                  v = error_panel (message e)
                  /\ texts v = ["Error: "; message e])
    /\ (isLoading q = false -> error q = None ->
        exists lis, v = list_view lis
                    /\ length lis = length l
                    /\ texts v = "TanStack Query - Fetch from Backend" :: map name l)
    /\ ((v = loading_panel
         /\ (forall m, v <> error_panel m) /\ (forall lis, v <> list_view lis))
        \/ ((exists m, v = error_panel m)
            /\ v <> loading_panel /\ (forall lis, v <> list_view lis))
        \/ ((exists lis, v = list_view lis)
            /\ v <> loading_panel /\ (forall m, v <> error_panel m))).
Proof.
  apply (renders_exactly_one_panel
           (mkQueryResult
              (Some (JArr [JObj [("id", JNum 1); ("name", JStr "Alice")];
                           JObj [("name", JStr "Bob"); ("id", JNum 2)]]))
              false None)
           [mkTodo 1 "Alice"; mkTodo 2 "Bob"]).
  intros _ _. reflexivity.
Defined.

(** C6 as stated fails: with the query settled on a value that is not an
    array (the object a success response may carry, which [fetchTodos]
    hands on unchecked), [data?.map] throws and the component renders
    none of the three presentations. *)
Lemma non_array_data_renders_nothing :
  ~ (forall q : QueryResult,
       exists v, TanStackQueryDemo q = Returns v
                 /\ (v = loading_panel
                     \/ (exists m, v = error_panel m)
                     \/ (exists lis, v = list_view lis))).
Proof.
  intros H.
  destruct (H (mkQueryResult
                 (Some (JObj [("error", JStr "not a list"); ("code", JNum 7)]))
                 false None)) as (v & Hv & _).
  discriminate Hv.
Qed.

End FeFacts.


(** ** Further properties of the frontend *)

Module FeExtra.
Import Fe.

(** X1. A request that fails (the promise of [fetch] rejects) makes
    [fetchTodos] reject with the same error at the instant the request
    settled; it neither sleeps nor reads a body. *)
Theorem fetchTodos_rethrows_fetch_failure (w : World) (e : Error) :
  network w "/api/todos" = Rejected e ->
  let '(result, w') := fetchTodos w in
  result = Rejected e
  /\ now w' = now w + Z.of_N (latency w)
  /\ log w' = (log w ++ [(now w', Fetched "/api/todos")])%list.
Proof.
  intros H. unfold fetchTodos, await, fetch. rewrite H.
  cbn [tick now log]. repeat split.
Qed.

Lemma fetchTodos_rethrows_fetch_failure_witness :
  let e := mkError "TypeError" "Failed to fetch" in
  let w := {| now := 0; network := fun _ => Rejected e;
              latency := 7%N; timer_lag := 0%N; log := [] |} in
  let '(result, w') := fetchTodos w in
  result = Rejected e
  /\ now w' = now w + Z.of_N (latency w)
  /\ log w' = (log w ++ [(now w', Fetched "/api/todos")])%list.
Proof.
  exact (fetchTodos_rethrows_fetch_failure
           {| now := 0; network := fun _ => Rejected (mkError "TypeError" "Failed to fetch");
              latency := 7%N; timer_lag := 0%N; log := [] |}
           (mkError "TypeError" "Failed to fetch") eq_refl).
Defined.

(** X2. When the response has a success status but [response.json()]
    rejects, [fetchTodos] rejects with that error, and only after the
    delay: it has slept 1000 ms before it reads the body. *)
Theorem fetchTodos_rethrows_bad_body_after_delay (w : World) (r : Response) (e : Error) :
  network w "/api/todos" = Fulfilled r ->
  ok r = true ->
  json_result r = Rejected e ->
  let arrived := now w + Z.of_N (latency w) in
  let '(result, w') := fetchTodos w in
  result = Rejected e
  /\ arrived + 1000 <= now w'
  /\ log w' = (log w ++ [(arrived, Fetched "/api/todos")]
                     ++ [(now w', Slept 1000)]
                     ++ [(now w', BodyRead)])%list.
Proof.
  intros Hnet Hok He arrived.
  rewrite (FeFacts.fetchTodos_unfold w r Hnet), Hok.
  unfold Response_json. rewrite He. cbn [tick now log timer_lag].
  split; [reflexivity|]. split.
  - subst arrived. lia.
  - rewrite <- !app_assoc. reflexivity.
Qed.

Lemma fetchTodos_rethrows_bad_body_after_delay_witness :
  let e := mkError "SyntaxError" "Unexpected token < in JSON" in
  let w := {| now := 100; network := fun _ => Fulfilled (mkResponse 200 (Rejected e));
              latency := 12%N; timer_lag := 1%N; log := [] |} in
  let arrived := now w + Z.of_N (latency w) in
  let '(result, w') := fetchTodos w in
  result = Rejected e
  /\ arrived + 1000 <= now w'
  /\ log w' = (log w ++ [(arrived, Fetched "/api/todos")]
                     ++ [(now w', Slept 1000)]
                     ++ [(now w', BodyRead)])%list.
Proof.
  exact (fetchTodos_rethrows_bad_body_after_delay
           {| now := 100;
              network := fun _ => Fulfilled (mkResponse 200
                           (Rejected (mkError "SyntaxError" "Unexpected token < in JSON")));
              latency := 12%N; timer_lag := 1%N; log := [] |}
           (mkResponse 200 _) _ eq_refl eq_refl eq_refl).
Defined.

(** X3. [fetchTodos] fulfils with [v] exactly when the request resolved to
    a response with a success status whose body parses to [v]; in every
    other case it rejects. *)
Theorem fetchTodos_fulfils_iff (w : World) (v : JSON) :
  fst (fetchTodos w) = Fulfilled v
  <-> exists r, network w "/api/todos" = Fulfilled r
                /\ ok r = true /\ json_result r = Fulfilled v.
Proof.
  destruct (network w "/api/todos") as [r | e] eqn:Hnet.
  - rewrite (FeFacts.fetchTodos_unfold w r Hnet).
    destruct (ok r) eqn:Hok; cbn [fst Response_json].
    + split.
      * intros H. exists r. repeat split; assumption.
      * intros (r' & Hr & _ & Hv). injection Hr as <-. exact Hv.
    + split; [discriminate|].
      intros (r' & Hr & Hok' & _). injection Hr as <-. congruence.
  - unfold fetchTodos, await, fetch. rewrite Hnet. cbn [fst].
    split; [discriminate|]. intros (r & Hr & _). discriminate Hr.
Qed.

(** X4. Whatever the network does, [fetchTodos] issues exactly one request,
    to [/api/todos], and it is the first thing it does; after it, the
    function either does nothing more or sleeps 1000 ms and then reads the
    body once. It never retries and never asks for another URL. *)
Theorem fetchTodos_requests_once (w : World) :
  let w' := snd (fetchTodos w) in
  requests (log w') = (requests (log w) ++ ["/api/todos"])%list
  /\ exists evs, log w' = (log w ++ evs)%list
                 /\ (map snd evs = [Fetched "/api/todos"]
                     \/ map snd evs = [Fetched "/api/todos"; Slept 1000; BodyRead]).
Proof.
  assert (Hreq : forall l evs,
             requests (l ++ evs) = (requests l ++ requests evs)%list)
    by (intros; unfold requests; apply flat_map_app).
  destruct (network w "/api/todos") as [r | e] eqn:Hnet.
  - rewrite (FeFacts.fetchTodos_unfold w r Hnet).
    destruct (ok r); cbn [snd Response_json tick log now timer_lag].
    + split.
      * rewrite <- !app_assoc, Hreq. reflexivity.
      * eexists. split; [rewrite <- !app_assoc; reflexivity|]. right. reflexivity.
    + split.
      * rewrite Hreq. reflexivity.
      * eexists. split; [reflexivity|]. left. reflexivity.
  - unfold fetchTodos, await, fetch. rewrite Hnet. cbn [snd tick log].
    split.
    + rewrite Hreq. reflexivity.
    + eexists. split; [reflexivity|]. left. reflexivity.
Qed.

(** X5. When the query is neither loading nor failed and [data] is
    undefined or an array of [{id, name}] records, the component renders,
    and the strings it shows are the heading followed by the names of
    [data], one per record and in the order of [data]; with [data]
    undefined or empty it is the heading alone. *)
Theorem list_view_shows_names_in_order (q : QueryResult) (l : list Todo) :
  isLoading q = false ->
  error q = None ->
  declared (data q) = Some l ->
  exists v, TanStackQueryDemo q = Returns v
            /\ texts v = "TanStack Query - Fetch from Backend" :: map name l.
Proof.
  intros Hl He Hd.
  destruct (FeFacts.list_view_rendered q l Hl He Hd) as (lis & Hv & _ & Hts & _).
  exists (list_view lis). split; [exact Hv|].
  unfold list_view, panel, heading. cbn [texts flat_map Datatypes.app].
  rewrite Hts, !app_nil_r. reflexivity.
Qed.

Lemma list_view_shows_names_in_order_witness :
  let q := mkQueryResult
             (Some (JArr [JObj [("id", JNum 3); ("name", JStr "Hehe")];
                          JObj [("id", JNum 1); ("name", JStr "Alice")]]))
             false None in
  exists v, TanStackQueryDemo q = Returns v
            /\ texts v = "TanStack Query - Fetch from Backend"
                           :: map name [mkTodo 3 "Hehe"; mkTodo 1 "Alice"].
Proof.
  exact (list_view_shows_names_in_order
           (mkQueryResult
              (Some (JArr [JObj [("id", JNum 3); ("name", JStr "Hehe")];
                           JObj [("id", JNum 1); ("name", JStr "Alice")]]))
              false None)
           [mkTodo 3 "Hehe"; mkTodo 1 "Alice"] eq_refl eq_refl eq_refl).
Defined.

(** X6. In the list view every record of [data] becomes one item whose
    [key] is given the record's id itself, in the order of [data]; when
    the ids of [data] are pairwise different, so are the values given as
    keys. *)
Theorem list_items_keyed_by_id (q : QueryResult) (l : list Todo) :
  isLoading q = false ->
  error q = None ->
  declared (data q) = Some l ->
  NoDup (map id l) ->
  exists v, TanStackQueryDemo q = Returns v
            /\ keys v = map (fun t => JNum (id t)) l
            /\ NoDup (keys v).
Proof.
  intros Hl He Hd Hnd.
  destruct (FeFacts.list_view_rendered q l Hl He Hd) as (lis & Hv & _ & _ & Hks).
  exists (list_view lis). split; [exact Hv|].
  assert (E : keys (list_view lis) = map (fun t => JNum (id t)) l).
  { unfold list_view, panel, heading.
    cbn [keys prop_value flat_map Datatypes.app String.eqb Ascii.eqb Bool.eqb].
    rewrite Hks, ?app_nil_r. reflexivity. }
  split; [exact E|]. rewrite E.
  rewrite <- (map_map id JNum).
  apply Finite.Injective_map_NoDup; [|exact Hnd].
  intros a b H. injection H as H. exact H.
Qed.

Lemma list_items_keyed_by_id_witness :
  let q := mkQueryResult
             (Some (JArr [JObj [("id", JNum 1); ("name", JStr "Alice")];
                          JObj [("id", JNum 2); ("name", JStr "Bob")];
                          JObj [("id", JNum 3); ("name", JStr "Hehe")]]))
             false None in
  let l := [mkTodo 1 "Alice"; mkTodo 2 "Bob"; mkTodo 3 "Hehe"] in
  exists v, TanStackQueryDemo q = Returns v
            /\ keys v = map (fun t => JNum (id t)) l
            /\ NoDup (keys v).
Proof.
  apply (list_items_keyed_by_id
           (mkQueryResult
              (Some (JArr [JObj [("id", JNum 1); ("name", JStr "Alice")];
                           JObj [("id", JNum 2); ("name", JStr "Bob")];
                           JObj [("id", JNum 3); ("name", JStr "Hehe")]]))
              false None)
           [mkTodo 1 "Alice"; mkTodo 2 "Bob"; mkTodo 3 "Hehe"]
           eq_refl eq_refl eq_refl).
  repeat constructor; simpl; intuition discriminate.
Defined.

End FeExtra.

(** ** Further properties of the backend *)

Module BeExtra.
Import Be.

Lemma dispatch_ignores_context decode m (r r' : Request) st :
  path r = path r' -> dispatch decode app m r st = dispatch decode app m r' st.
Proof.
  intros Hp. unfold dispatch, getPath. rewrite !BeFacts.router_match_app, Hp.
  set (p := if has_percent (path r') then decode (path r') else path r').
  destruct (String.eqb "GET" m && String.eqb "/" p);
    destruct (String.eqb "GET" m && String.eqb "/api/todos" p);
    reflexivity.
Qed.

(** X7. The service answers 200 exactly to the GET and HEAD requests
    whose path, as the framework's [getPath] decodes it, is [/] or
    [/api/todos]; every other request gets 404, and no request gets any
    other status, whatever the store holds. *)
Theorem status_200_iff decode env (r : Request) (st : Store) :
  let res := fst (fetch (default_export decode env) r st) in
  (status res = 200
   <-> (method r = "GET" \/ method r = "HEAD")
       /\ (getPath decode r = "/" \/ getPath decode r = "/api/todos"))
  /\ (status res = 200 \/ status res = 404)
  /\ ((forall a b, path r <> a ++ String "%" b) -> getPath decode r = path r)
  /\ ((exists a b, path r = a ++ String "%" b) ->
      getPath decode r = decode (path r)).
Proof.
  cbn zeta. rewrite <- !and_assoc. split; [|apply BeFacts.getPath_cases].
  split; [|apply BeFacts.getPath_cases].
  cbn [fetch default_export]. unfold Hono_fetch.
  assert (Hin : {getPath decode r = "/" \/ getPath decode r = "/api/todos"}
                + {getPath decode r <> "/" /\ getPath decode r <> "/api/todos"}).
  { destruct (string_dec (getPath decode r) "/"); [left; left; assumption|].
    destruct (string_dec (getPath decode r) "/api/todos"); [left; right; assumption|].
    right. split; assumption. }
  destruct (String.eqb_spec (method r) "HEAD") as [Hh | Hh].
  - destruct Hin as [Hp | Hp].
    + pose proof (BeFacts.dispatch_get decode "GET" r st eq_refl Hp) as H200.
      destruct (dispatch decode app "GET" r st) as [res st']. cbn [fst status] in *.
      split; [|left; exact H200].
      split; [intros _; split; [right; exact Hh | exact Hp] | intros _; exact H200].
    + rewrite BeFacts.dispatch_not_found by (right; exact Hp).
      cbn [fst status notFoundHandler]. split; [|right; reflexivity].
      split; [discriminate|]. intros [_ [H | H]]; destruct Hp; contradiction.
  - destruct (string_dec (method r) "GET") as [Hg | Hg].
    + destruct Hin as [Hp | Hp].
      * pose proof (BeFacts.dispatch_get decode (method r) r st Hg Hp) as H200.
        split; [|left; exact H200].
        split; [intros _; split; [left; exact Hg | exact Hp] | intros _; exact H200].
      * rewrite BeFacts.dispatch_not_found by (right; exact Hp).
        cbn [fst status notFoundHandler]. split; [|right; reflexivity].
        split; [discriminate|]. intros [_ [H | H]]; destruct Hp; contradiction.
    + rewrite BeFacts.dispatch_not_found by (left; exact Hg).
      cbn [fst status notFoundHandler]. split; [|right; reflexivity].
      split; [discriminate|]. intros [[H | H] _]; contradiction.
Qed.

(** X8. The answer depends on the method and the path only: two requests
    that agree on both get the same response and leave the same store,
    whatever their headers and payloads are. *)
Theorem response_ignores_headers_and_payload decode env (r r' : Request) (st : Store) :
  method r = method r' ->
  path r = path r' ->
  fetch (default_export decode env) r st = fetch (default_export decode env) r' st.
Proof.
  intros Hm Hp. cbn [fetch default_export]. unfold Hono_fetch.
  rewrite Hm, (dispatch_ignores_context decode "GET" r r' st Hp),
    (dispatch_ignores_context decode (method r') r r' st Hp).
  reflexivity.
Qed.

Lemma response_ignores_headers_and_payload_witness :
  fetch (default_export no_escapes []) (mkRequest "GET" "/api/todos" [] "") initial_store
  = fetch (default_export no_escapes [])
      (mkRequest "GET" "/api/todos" [("authorization", "Bearer x")] "[4]")
      initial_store.
Proof.
  exact (response_ignores_headers_and_payload no_escapes []
           (mkRequest "GET" "/api/todos" [] "")
           (mkRequest "GET" "/api/todos" [("authorization", "Bearer x")] "[4]")
           initial_store eq_refl eq_refl).
Defined.

(** X9. Serving is request by request: the responses to a sequence of
    requests followed by another are the responses to the first followed
    by the responses to the second, each sequence served on its own from
    the same store; there is one response per request. *)
Theorem serve_app decode env (st : Store) (rs1 rs2 : list Request) :
  fst (serve decode env st (rs1 ++ rs2))
  = (fst (serve decode env st rs1) ++ fst (serve decode env st rs2))%list
  /\ length (fst (serve decode env st (rs1 ++ rs2))) = (length rs1 + length rs2)%nat.
Proof.
  assert (E : fst (serve decode env st (rs1 ++ rs2))
              = (fst (serve decode env st rs1) ++ fst (serve decode env st rs2))%list).
  { induction rs1 as [|r rest IH]; [reflexivity|].
    cbn [serve Datatypes.app].
    pose proof (BeFacts.fetch_store decode env r st) as Hr.
    destruct (fetch (default_export decode env) r st) as [res st1].
    cbn [snd] in Hr. subst st1.
    destruct (serve decode env st (rest ++ rs2)) as [out st2].
    destruct (serve decode env st rest) as [out1 st3].
    cbn [fst] in *. rewrite IH. reflexivity. }
  assert (L : forall rs, length (fst (serve decode env st rs)) = length rs).
  { induction rs as [|r rest IH]; [reflexivity|].
    cbn [serve].
    pose proof (BeFacts.fetch_store decode env r st) as Hr.
    destruct (fetch (default_export decode env) r st) as [res st1].
    cbn [snd] in Hr. subst st1.
    destruct (serve decode env st rest) as [out st2].
    cbn [fst length] in *. rewrite IH. reflexivity. }
  split; [exact E|]. rewrite L. apply length_app.
Qed.

End BeExtra.
